(** * Verification of the Jenkins demo application (src/app.py)

    The module under study has three functions, [greet], [add] and
    [multiply], and an entry point [main] that prints four lines.  The
    functions are duck-typed, so they are embedded over a small universe of
    Python values (None, bool, int, str) together with the part of the
    runtime they rely on: truth testing, [str()] conversion inside
    f-strings, and the dispatch of the binary operators [+] and [*].

    Conventions of the embedding:
    - a Python [int] is an unbounded [Z];
    - a Python [str] is a [string]; a non-ASCII literal is held as its
      UTF-8 bytes, and [char_count] gives its length in characters;
    - floating-point operands are outside the universe;
    - an exception is a value of [exn]; a computation that may raise
      returns a [result];
    - the limits of the interpreter that the module can reach through its
      arguments are part of the model: the default limit of 4300 digits on
      the conversion of an [int] to text, the index range of a 64-bit
      build for repetition counts and string lengths, and, for
      repetition, whose result can be far larger than its operands, an
      allocator that may refuse the result (the class [Runtime]);
    - [main] runs in a small monad that threads the trace of observable
      events (calls of the module's functions and lines written to
      standard output) and stops at the first exception. *)

From Stdlib Require Import ZArith List Bool Lia.
From Stdlib Require Import Ascii String DecimalString.
Import ListNotations.

Open Scope string_scope.
Open Scope Z_scope.

(** ** Values and exceptions *)

Module Py.

(** The dynamically typed values that reach the module. *)
Inductive value : Type :=
| VNone
| VBool (b : bool)
| VInt (z : Z)
| VStr (s : string).

(** Exceptions.  [ValueError] is the one the module raises itself; the
    runtime also raises it, with its own message, when an [int] is too
    long to be converted to text.  [TypeError], [OverflowError] and
    [MemoryError] come from the runtime only: an operator that does not
    apply to its operands, a repetition count or length outside the index
    range, a result that cannot be allocated (their messages are not
    recorded). *)
Inductive exn : Type :=
| ValueError (msg : string)
| TypeError
| OverflowError
| MemoryError.

Inductive result (A : Type) : Type :=
| Ok (a : A)
| Raise (e : exn).

Arguments Ok {A} a.
Arguments Raise {A} e.

(** Feeding the value a computation returned to the next one; an
    exception raised by the first is what the whole expression raises. *)
Definition and_then {A B} (r : result A) (k : A -> result B) : result B :=
  match r with
  | Ok a => k a
  | Raise e => Raise e
  end.

(** Truth testing, as done by [not name] and [if]. *)
Definition truthy (v : value) : bool :=
  match v with
  | VNone => false
  | VBool b => b
  | VInt z => negb (z =? 0)
  | VStr s => negb (String.length s =? 0)%nat
  end.

Definition falsy (v : value) : bool := negb (truthy v).

(** The text of a value: what [str(v)] returns when it returns. *)
Definition py_str (v : value) : string :=
  match v with
  | VNone => "None"
  | VBool true => "True"
  | VBool false => "False"
  | VInt z => NilZero.string_of_int (Z.to_int z)
  | VStr s => s
  end.

(** The interpreter's default limit on the number of digits of an [int]
    converted to or from text, and the message of the [ValueError] it
    raises beyond it. *)
Definition int_max_str_digits : Z := 4300.

Definition digit_limit_message : string :=
  "Exceeds the limit (4300 digits) for integer string conversion; use sys.set_int_max_str_digits() to increase the limit".

(** The number of decimal digits of an integer, sign apart. *)
Definition decimal_digits (z : Z) : Z :=
  Z.of_nat (String.length (NilZero.string_of_int (Z.to_int (Z.abs z)))).

(** [str(v)] as an f-string field [{v}] with no format specification and
    [print(v)] run it: the text of the value, or the runtime's
    [ValueError] for an [int] of more digits than the limit. *)
Definition py_format (v : value) : result string :=
  match v with
  | VInt z =>
      if int_max_str_digits <? decimal_digits z
      then Raise (ValueError digit_limit_message)
      else Ok (py_str v)
  | _ => Ok (py_str v)
  end.

(** The numeric view of a value: [bool] is a subclass of [int]. *)
Definition as_int (v : value) : option Z :=
  match v with
  | VInt z => Some z
  | VBool b => Some (if b then 1 else 0)
  | _ => None
  end.

(** [n] copies of [s], one after the other. *)
Fixpoint repeat_string (s : string) (n : nat) : string :=
  match n with
  | O => ""
  | S k => s ++ repeat_string s k
  end.

(** The index range of a 64-bit build. *)
Definition PY_SSIZE_T_MAX : Z := 9223372036854775807.
Definition PY_SSIZE_T_MIN : Z := - PY_SSIZE_T_MAX - 1.

(** The length of a string in characters: the bytes of its UTF-8 form
    that are not continuation bytes. *)
Definition is_continuation_byte (c : ascii) : bool :=
  ((128 <=? N_of_ascii c) && (N_of_ascii c <? 192))%N.

Fixpoint char_count (s : string) : Z :=
  match s with
  | EmptyString => 0
  | String c s' => (if is_continuation_byte c then 0 else 1) + char_count s'
  end.

(** What the module cannot decide by itself: whether the runtime has room
    for a new string with the given content. *)
Class Runtime : Type := { can_allocate : string -> bool }.

(** A runtime that never refuses. *)
Definition ample_heap : Runtime := {| can_allocate := fun _ => true |}.

(** The operator [a + b].  A string on the left concatenates with a
    string and with nothing else; otherwise both operands must be
    integers (the runtime answers [TypeError] when neither operand's type
    implements the operation for the other). *)
Definition binary_add (a b : value) : result value :=
  match a, b with
  | VStr s, VStr t => Ok (VStr (s ++ t))
  | _, _ =>
      match as_int a, as_int b with
      | Some x, Some y => Ok (VInt (x + y))
      | _, _ => Raise TypeError
      end
  end.

(** A repetition count must fit an index. *)
Definition as_index (n : Z) : result Z :=
  if (PY_SSIZE_T_MIN <=? n) && (n <=? PY_SSIZE_T_MAX)
  then Ok n
  else Raise OverflowError.

Section Repetition.

Context {rt : Runtime}.

(** Repeating a string [count] times, [count] being an index: nothing for
    a count below one, the string itself for one; otherwise the length of
    the result must fit an index, and the result, unless empty, must be
    granted by the allocator. *)
Definition unicode_repeat (s : string) (count : Z) : result value :=
  if count <? 1 then Ok (VStr "")
  else if count =? 1 then Ok (VStr s)
  else if char_count s >? PY_SSIZE_T_MAX / count then Raise OverflowError
  else
    match s with
    | EmptyString => Ok (VStr "")
    | _ =>
        let r := repeat_string s (Z.to_nat count) in
        if can_allocate r then Ok (VStr r) else Raise MemoryError
    end.

Definition sequence_repeat (s : string) (n : Z) : result value :=
  and_then (as_index n) (unicode_repeat s).

(** The operator [a * b].  A string times an integer, on either side, is
    repetition; two integers give their product; anything else is a
    [TypeError] from the runtime. *)
Definition binary_mul (a b : value) : result value :=
  match a, b with
  | VStr s, _ =>
      match as_int b with
      | Some n => sequence_repeat s n
      | None => Raise TypeError
      end
  | _, VStr s =>
      match as_int a with
      | Some n => sequence_repeat s n
      | None => Raise TypeError
      end
  | _, _ =>
      match as_int a, as_int b with
      | Some x, Some y => Ok (VInt (x * y))
      | _, _ => Raise TypeError
      end
  end.

End Repetition.

End Py.

Export Py.

(** ** Observable runs *)

Inductive fname : Type := Fgreet | Fadd | Fmultiply.

(** What an observer of a run sees, in order: the calls into the module
    and the lines [print] writes to standard output. *)
Inductive event : Type :=
| Called (f : fname) (args : list value)
| Printed (line : string).

Definition trace := list event.

(** A computation takes the trace so far and gives back its outcome and
    the extended trace; an exception keeps what was already written. *)
Definition M (A : Type) : Type := trace -> result A * trace.

Definition ret {A} (a : A) : M A := fun t => (Ok a, t).

Definition bind {A B} (c : M A) (k : A -> M B) : M B :=
  fun t =>
    match c t with
    | (Ok a, t') => k a t'
    | (Raise e, t') => (Raise e, t')
    end.

(** A computation with no observable effect of its own. *)
Definition lift {A} (r : result A) : M A := fun t => (r, t).

Declare Scope run_scope.
Delimit Scope run_scope with run.
Notation "x <- c ;; k" := (bind c (fun x => k))
  (at level 100, c at next level, right associativity) : run_scope.
Notation "c ;; k" := (bind c (fun _ => k))
  (at level 100, right associativity) : run_scope.

(** [print(v)] writes [str(v)] as one line. *)
Definition py_print (v : value) : M unit :=
  (line <- lift (py_format v) ;;
   fun t => (Ok tt, (t ++ [Printed line])%list))%run.

(** The lines on standard output and the calls made, read off a trace. *)
Fixpoint stdout_lines (t : trace) : list string :=
  match t with
  | [] => []
  | Printed l :: t' => l :: stdout_lines t'
  | Called _ _ :: t' => stdout_lines t'
  end.

Fixpoint calls_made (t : trace) : list (fname * list value) :=
  match t with
  | [] => []
  | Called f args :: t' => (f, args) :: calls_made t'
  | Printed _ :: t' => calls_made t'
  end.

(** ** Vocabulary of the specification *)

(** Blank characters: space, tab, line feed, vertical tab, form feed and
    carriage return. *)
Definition is_blank (c : ascii) : bool :=
  match nat_of_ascii c with
  | 32%nat | 9%nat | 10%nat | 11%nat | 12%nat | 13%nat => true
  | _ => false
  end.

Fixpoint all_blank (s : string) : bool :=
  match s with
  | EmptyString => true
  | String c s' => is_blank c && all_blank s'
  end.

(** A whitespace-only name has at least one character and only blank
    ones. *)
Definition whitespace_only (s : string) : bool :=
  negb (String.length s =? 0)%nat && all_blank s.

(** What trimming would do to the front of a name, for comparison with
    what [greet] does. *)
Fixpoint strip_left (s : string) : string :=
  match s with
  | EmptyString => EmptyString
  | String c s' => if is_blank c then strip_left s' else s
  end.

(** "[s] repeated [n] times", said with the library's lists. *)
Definition copies (s : string) (n : nat) : string :=
  String.concat "" (List.repeat s n).

(** ** The test harness *)

(** The operator [==] on values: numbers compare by value ([True == 1]),
    strings by content, [None] equals only itself. *)
Definition py_eq (a b : value) : bool :=
  match as_int a, as_int b with
  | Some x, Some y => x =? y
  | _, _ =>
      match a, b with
      | VStr s, VStr t => String.eqb s t
      | VNone, VNone => true
      | _, _ => false
      end
  end.

(** How a test function ends: it passes, an [assert] (or
    [pytest.raises]) fails, or an exception escapes from the code under
    test. *)
Inductive outcome : Type :=
| Passed
| AssertionFailed
| Errored (e : exn).

(** [assert actual == expected]. *)
Definition assert_eq (actual : result value) (expected : value) : outcome :=
  match actual with
  | Ok v => if py_eq v expected then Passed else AssertionFailed
  | Raise e => Errored e
  end.

(** [with pytest.raises(ValueError): block]. *)
Definition raises_ValueError (block : result value) : outcome :=
  match block with
  | Raise (ValueError _) => Passed
  | Raise e => Errored e
  | Ok _ => AssertionFailed
  end.

(** Statements of a test body run in order and stop at the first one
    that does not pass. *)
Fixpoint run_statements (body : list outcome) : outcome :=
  match body with
  | [] => Passed
  | Passed :: rest => run_statements rest
  | o :: _ => o
  end.

Section App.

Context {rt : Runtime}.

(** ** The module app.py *)

(** [def greet(name)]:
    [if not name: raise ValueError("Name cannot be empty")],
    then [return f"Hello, {name}!"]. *)
Definition greet (name : value) : result value :=
  if negb (truthy name)
  then Raise (ValueError "Name cannot be empty")
  else and_then (py_format name)
         (fun text => Ok (VStr ("Hello, " ++ text ++ "!"))).

(** [def add(a, b): return a + b]. *)
Definition add (a b : value) : result value := binary_add a b.

(** [def multiply(a, b): return a * b]. *)
Definition multiply (a b : value) : result value := binary_mul a b.

(** ** The entry point *)

(** Applying one of the module's functions to its positional arguments. *)
Definition apply_fn (f : fname) (args : list value) : result value :=
  match f, args with
  | Fgreet, [name] => greet name
  | Fadd, [a; b] => add a b
  | Fmultiply, [a; b] => multiply a b
  | _, _ => Raise TypeError
  end.

Definition call (f : fname) (args : list value) : M value :=
  fun t => (apply_fn f args, (t ++ [Called f args])%list).

Definition banner : string := "🚀 Jenkins Demo Python App".

(** [def main()]: four [print] statements, the last three of which
    evaluate a call first; the last two put the call's result in an
    f-string. *)
Definition main : M unit :=
  (py_print (VStr banner) ;;
   g <- call Fgreet [VStr "Jenkins"] ;;
   py_print g ;;
   s <- call Fadd [VInt 2; VInt 3] ;;
   sum_text <- lift (py_format s) ;;
   py_print (VStr ("2 + 3 = " ++ sum_text)) ;;
   p <- call Fmultiply [VInt 4; VInt 5] ;;
   product_text <- lift (py_format p) ;;
   py_print (VStr ("4 * 5 = " ++ product_text)))%run.

(** The events of one run of [main], in the order they happen. *)
Definition main_events : trace :=
  [ Printed banner;
    Called Fgreet [VStr "Jenkins"];
    Printed "Hello, Jenkins!";
    Called Fadd [VInt 2; VInt 3];
    Printed "2 + 3 = 5";
    Called Fmultiply [VInt 4; VInt 5];
    Printed "4 * 5 = 20" ].

(** The reading of the entry point under which every printed line after
    the banner is exactly the value its call returned. *)
Definition main_prints_bare_results : Prop :=
  exists g s p,
    greet (VStr "Jenkins") = Ok g /\
    add (VInt 2) (VInt 3) = Ok s /\
    multiply (VInt 4) (VInt 5) = Ok p /\
    stdout_lines (snd (main [])) = [banner; py_str g; py_str s; py_str p].

(** The reading of repetition under which every count is served. *)
Definition repeats_for_every_count : Prop :=
  forall (s : string) (n : nat),
    multiply (VStr s) (VInt (Z.of_nat n)) = Ok (VStr (copies s n)).

(** ** Running the file: the guard [if __name__ == "__main__": main()] *)

(** Executing the module body under a given [__name__].  The [def]
    statements have no observable effect; the guard at the end calls
    [main] when the file is run as a script and does nothing when it is
    imported. *)
Definition module_exec (dunder_name : string) : M unit :=
  if String.eqb dunder_name "__main__" then main else ret tt.

(** ** The test suite tests/test_app.py *)

Definition test_greet : outcome :=
  run_statements
    [ assert_eq (greet (VStr "John")) (VStr "Hello, John!");
      assert_eq (greet (VStr "Jenkins")) (VStr "Hello, Jenkins!") ].

Definition test_greet_empty_name : outcome :=
  run_statements [ raises_ValueError (greet (VStr "")) ].

Definition test_add : outcome :=
  run_statements
    [ assert_eq (add (VInt 2) (VInt 3)) (VInt 5);
      assert_eq (add (VInt (-1)) (VInt 1)) (VInt 0);
      assert_eq (add (VInt 0) (VInt 0)) (VInt 0) ].

Definition test_multiply : outcome :=
  run_statements
    [ assert_eq (multiply (VInt 2) (VInt 3)) (VInt 6);
      assert_eq (multiply (VInt (-2)) (VInt 3)) (VInt (-6));
      assert_eq (multiply (VInt 0) (VInt 5)) (VInt 0) ].

Definition test_multiply_by_zero : outcome :=
  run_statements [ assert_eq (multiply (VInt 100) (VInt 0)) (VInt 0) ].

Definition test_suite : list outcome :=
  [ test_greet; test_greet_empty_name; test_add; test_multiply;
    test_multiply_by_zero ].

(** * Properties *)

(** ** Strings *)

Lemma length_zero_iff_empty (s : string) :
  String.length s = 0%nat <-> s = "".
Proof.
  destruct s as [|c s']; simpl; split; intro H;
    try reflexivity; discriminate H.
Qed.

Lemma append_empty_r (s : string) : s ++ "" = s.
Proof.
  induction s as [|c s' IH]; simpl; [reflexivity | now rewrite IH].
Qed.

Lemma append_length_sum (s t : string) :
  String.length (s ++ t) = (String.length s + String.length t)%nat.
Proof.
  induction s as [|c s' IH]; simpl; [reflexivity | now rewrite IH].
Qed.

Lemma append_assoc_str (s t u : string) : (s ++ t) ++ u = s ++ (t ++ u).
Proof.
  induction s as [|c s' IH]; simpl; [reflexivity | now rewrite IH].
Qed.

Lemma append_last_inj (c : ascii) (s t : string) :
  s ++ String c "" = t ++ String c "" -> s = t.
Proof.
  revert t. induction s as [|a s' IH]; intros [|b t'] H; simpl in H.
  - reflexivity.
  - injection H as _ H. destruct t'; discriminate H.
  - injection H as _ H. destruct s'; discriminate H.
  - injection H as Hab H. subst b. f_equal. now apply IH.
Qed.

Lemma repeat_string_length (s : string) (n : nat) :
  String.length (repeat_string s n) = (n * String.length s)%nat.
Proof.
  induction n as [|k IH]; simpl; [reflexivity|].
  now rewrite append_length_sum, IH.
Qed.

Lemma repeat_string_copies (s : string) (n : nat) :
  repeat_string s n = copies s n.
Proof.
  unfold copies.
  induction n as [|k IH]; [reflexivity|].
  simpl repeat_string. rewrite IH.
  destruct k as [|j]; simpl; [apply append_empty_r | reflexivity].
Qed.

Lemma repeat_string_plus (s : string) (m n : nat) :
  repeat_string s (m + n) = repeat_string s m ++ repeat_string s n.
Proof.
  induction m as [|k IH]; simpl; [reflexivity|].
  now rewrite IH, append_assoc_str.
Qed.

Lemma repeat_string_empty (n : nat) : repeat_string "" n = "".
Proof. induction n as [|k IH]; simpl; [reflexivity | exact IH]. Qed.

Lemma repeat_string_times (s : string) (m n : nat) :
  repeat_string (repeat_string s m) n = repeat_string s (m * n).
Proof.
  induction n as [|k IH]; simpl.
  - now rewrite Nat.mul_0_r.
  - rewrite IH, <- repeat_string_plus. f_equal. lia.
Qed.

Lemma to_nat_nonpos (z : Z) : z <= 0 -> Z.to_nat z = 0%nat.
Proof. destruct z as [|p|p]; simpl; intro H; try reflexivity; lia. Qed.

Lemma to_nat_times (m n : Z) :
  0 <= m \/ 0 <= n -> Z.to_nat (m * n) = (Z.to_nat m * Z.to_nat n)%nat.
Proof.
  intros [H|H].
  - destruct (Z.le_gt_cases 0 n) as [Hn|Hn].
    + now apply Z2Nat.inj_mul.
    + rewrite (to_nat_nonpos n), Nat.mul_0_r by lia.
      apply to_nat_nonpos. nia.
  - destruct (Z.le_gt_cases 0 m) as [Hm|Hm].
    + now apply Z2Nat.inj_mul.
    + rewrite (to_nat_nonpos m) by lia. simpl.
      apply to_nat_nonpos. nia.
Qed.

(** ** Truth testing and conversion to text *)

Lemma truthy_str_iff (s : string) : truthy (VStr s) = true <-> s <> "".
Proof.
  simpl. rewrite negb_true_iff, Nat.eqb_neq.
  now rewrite length_zero_iff_empty.
Qed.

Lemma falsy_str_iff (s : string) : falsy (VStr s) = true <-> s = "".
Proof.
  unfold falsy. simpl. rewrite negb_involutive, Nat.eqb_eq.
  apply length_zero_iff_empty.
Qed.

Lemma whitespace_only_nonempty (s : string) :
  whitespace_only s = true -> s <> "".
Proof.
  unfold whitespace_only. intros H E. subst s. discriminate H.
Qed.

Lemma strip_left_all_blank (s : string) :
  all_blank s = true -> strip_left s = "".
Proof.
  induction s as [|c s' IH]; simpl; [reflexivity|].
  intro Hb. apply andb_true_iff in Hb. destruct Hb as [Hc Hb'].
  rewrite Hc. now apply IH.
Qed.

(** The conversion either gives the text of the value or, for an integer
    beyond the digit limit only, raises the runtime's [ValueError]. *)
Lemma py_format_cases (v : value) :
  py_format v = Ok (py_str v) \/
  (py_format v = Raise (ValueError digit_limit_message) /\
   exists z, v = VInt z /\ int_max_str_digits < decimal_digits z).
Proof.
  destruct v as [| b | z | s]; try (left; reflexivity).
  unfold py_format.
  destruct (Z.ltb_spec int_max_str_digits (decimal_digits z)) as [H|H].
  - right. split; [reflexivity|]. now exists z.
  - now left.
Qed.

Lemma py_format_ok (v : value) (text : string) :
  py_format v = Ok text -> text = py_str v.
Proof.
  destruct (py_format_cases v) as [E|[E _]]; rewrite E; intro H;
    [now injection H | discriminate H].
Qed.

(** ** The two branches of [greet] *)

Lemma greet_truthy (v : value) :
  truthy v = true ->
  greet v = and_then (py_format v)
              (fun text => Ok (VStr ("Hello, " ++ text ++ "!"))).
Proof. intro H. unfold greet. now rewrite H. Qed.

Lemma greet_falsy (v : value) :
  truthy v = false -> greet v = Raise (ValueError "Name cannot be empty").
Proof. intro H. unfold greet. now rewrite H. Qed.

Lemma greet_str_nonempty (s : string) :
  s <> "" -> greet (VStr s) = Ok (VStr ("Hello, " ++ s ++ "!")).
Proof.
  intro Hs. apply truthy_str_iff in Hs.
  now rewrite (greet_truthy (VStr s) Hs).
Qed.

(** An error of [greet] is its own, or the one the conversion raised. *)
Lemma greet_raises (v : value) (e : exn) :
  greet v = Raise e ->
  e = ValueError "Name cannot be empty" \/
  (truthy v = true /\ py_format v = Raise e).
Proof.
  unfold greet. destruct (truthy v); simpl.
  - intro H. right. split; [reflexivity|].
    destruct (py_format v) as [text|e']; simpl in H;
      [discriminate H | now injection H as <-].
  - intro H. left. now injection H.
Qed.

(** ** Runs of the entry point *)

Lemma bind_ok {A B} (c : M A) (k : A -> M B) (t t' : trace) (a : A) :
  c t = (Ok a, t') -> bind c k t = k a t'.
Proof. intro H. unfold bind. now rewrite H. Qed.

Lemma bind_raise {A B} (c : M A) (k : A -> M B) (t t' : trace) (e : exn) :
  c t = (Raise e, t') -> bind c k t = (Raise e, t').
Proof. intro H. unfold bind. now rewrite H. Qed.

Lemma stdout_lines_app (t u : trace) :
  stdout_lines (t ++ u)%list = (stdout_lines t ++ stdout_lines u)%list.
Proof.
  induction t as [|[f args|l] t' IH]; simpl; [reflexivity | exact IH |].
  now rewrite IH.
Qed.

Lemma main_from (t : trace) : main t = (Ok tt, (t ++ main_events)%list).
Proof.
  unfold main, bind, py_print, bind, lift, call. simpl.
  repeat rewrite <- app_assoc. reflexivity.
Qed.

(** Whatever was printed before, [main] adds its four lines after it. *)
Lemma main_output_from (t : trace) :
  stdout_lines (snd (main t)) =
    (stdout_lines t ++
     [banner; "Hello, Jenkins!"; "2 + 3 = 5"; "4 * 5 = 20"])%list.
Proof. rewrite main_from. simpl snd. now rewrite stdout_lines_app. Qed.

Lemma main_calls : calls_made main_events =
  [ (Fgreet, [VStr "Jenkins"]);
    (Fadd, [VInt 2; VInt 3]);
    (Fmultiply, [VInt 4; VInt 5]) ].
Proof. reflexivity. Qed.

Lemma bare_results_refuted : ~ main_prints_bare_results.
Proof.
  unfold main_prints_bare_results.
  intros (g & s & p & Hg & Hs & Hp & Hout).
  change (add (VInt 2) (VInt 3)) with (Ok (VInt 5)) in Hs.
  injection Hs as <-.
  rewrite main_from in Hout.
  apply (f_equal (fun ls => nth 2 ls "")) in Hout.
  vm_compute in Hout. discriminate Hout.
Qed.

(** ** The operators *)

Lemma add_ints (a b : Z) : add (VInt a) (VInt b) = Ok (VInt (a + b)).
Proof. reflexivity. Qed.

Lemma multiply_ints (a b : Z) : multiply (VInt a) (VInt b) = Ok (VInt (a * b)).
Proof. reflexivity. Qed.

Lemma multiply_str_int (s : string) (z : Z) :
  multiply (VStr s) (VInt z) = sequence_repeat s z.
Proof. reflexivity. Qed.

(** What [add] can raise: only the runtime's [TypeError]. *)
Lemma add_raises_only_TypeError (a b : value) (e : exn) :
  add a b = Raise e -> e = TypeError.
Proof.
  unfold add, binary_add.
  destruct a as [| [|] | x | s], b as [| [|] | y | t]; simpl; intro H;
    inversion H; reflexivity.
Qed.

(** Repetition, when it returns, returns the copies; when it raises, it
    is for the count, the length or the memory. *)
Lemma sequence_repeat_value (s : string) (n : Z) (r : value) :
  sequence_repeat s n = Ok r -> r = VStr (repeat_string s (Z.to_nat n)).
Proof.
  unfold sequence_repeat, as_index.
  destruct (_ && _); cbn [and_then]; [|discriminate].
  unfold unicode_repeat.
  destruct (Z.ltb_spec n 1) as [H1|H1].
  { intro H. injection H as <-. now rewrite to_nat_nonpos by lia. }
  destruct (Z.eqb_spec n 1) as [E|_].
  { intro H. injection H as <-. subst n.
    change (Z.to_nat 1) with 1%nat. simpl. now rewrite append_empty_r. }
  destruct (char_count s >? PY_SSIZE_T_MAX / n); [discriminate|].
  destruct s as [|c s'].
  { intro H. injection H as <-. now rewrite repeat_string_empty. }
  cbv zeta. destruct (can_allocate _); [|discriminate].
  intro H. now injection H as <-.
Qed.

Lemma sequence_repeat_raises (s : string) (n : Z) (e : exn) :
  sequence_repeat s n = Raise e -> e = OverflowError \/ e = MemoryError.
Proof.
  unfold sequence_repeat, as_index.
  destruct (_ && _); cbn [and_then];
    [|intro H; injection H as <-; now left].
  unfold unicode_repeat.
  destruct (n <? 1); [discriminate|].
  destruct (n =? 1); [discriminate|].
  destruct (char_count s >? PY_SSIZE_T_MAX / n);
    [intro H; injection H as <-; now left|].
  destruct s as [|c s']; [discriminate|].
  cbv zeta. destruct (can_allocate _); [discriminate|].
  intro H. injection H as <-. now right.
Qed.

Lemma multiply_raises (a b : value) (e : exn) :
  multiply a b = Raise e ->
  e = TypeError \/ e = OverflowError \/ e = MemoryError.
Proof.
  unfold multiply, binary_mul.
  destruct a as [| x | x | s], b as [| y | y | t]; cbn [as_int]; intro H;
    try discriminate H;
    try (injection H as <-; now left);
    right; exact (sequence_repeat_raises _ _ _ H).
Qed.

(** * The claims *)

(** C1. For every non-empty name string [n], [greet] returns exactly
    ["Hello, "] followed by [n] followed by ["!"], with [n] unmodified,
    and raises nothing. *)
Theorem greet_nonempty_string (n : string) :
  n <> "" -> greet (VStr n) = Ok (VStr ("Hello, " ++ n ++ "!")).
Proof. apply greet_str_nonempty. Qed.

(** The property of C1 at the name ["John"] of the test suite. *)
Lemma greet_nonempty_string_witness :
  "John" <> "" /\ greet (VStr "John") = Ok (VStr "Hello, John!").
Proof.
  split; [discriminate | apply (greet_nonempty_string "John"); discriminate].
Defined.

(** C2. [greet] raises [ValueError "Name cannot be empty"] if and only if
    its argument is falsy, which for a name string means empty; every
    non-empty name string is greeted without error; any other error of
    [greet] is not raised by the module but by the runtime's conversion
    of the argument to text, which happens only for an integer of more
    digits than the interpreter's limit; and no other function of the
    module raises a [ValueError]. *)
Theorem greet_raises_iff_empty :
  (forall v, greet v = Raise (ValueError "Name cannot be empty")
             <-> falsy v = true) /\
  (forall s, greet (VStr s) = Raise (ValueError "Name cannot be empty")
             <-> s = "") /\
  (forall s, s <> "" -> exists g, greet (VStr s) = Ok g) /\
  (forall s e, greet (VStr s) = Raise e ->
               e = ValueError "Name cannot be empty") /\
  (forall v e, greet v = Raise e ->
               e = ValueError "Name cannot be empty" \/
               (py_format v = Raise e /\
                exists z, v = VInt z /\
                          int_max_str_digits < decimal_digits z)) /\
  (forall a b msg, add a b <> Raise (ValueError msg) /\
                   multiply a b <> Raise (ValueError msg)).
Proof.
  assert (Hiff : forall v, greet v = Raise (ValueError "Name cannot be empty")
                           <-> falsy v = true).
  { intro v. unfold falsy. split.
    - intro H. destruct (truthy v) eqn:Ht; [|reflexivity].
      rewrite (greet_truthy v Ht) in H.
      destruct (py_format_cases v) as [E|[E _]]; rewrite E in H;
        simpl in H; discriminate H.
    - intro H. apply greet_falsy. now apply negb_true_iff in H. }
  assert (Hany : forall v e, greet v = Raise e ->
            e = ValueError "Name cannot be empty" \/
            (py_format v = Raise e /\
             exists z, v = VInt z /\
                       int_max_str_digits < decimal_digits z)).
  { intros v e H. apply greet_raises in H. destruct H as [H|[_ H]].
    - now left.
    - right. split; [exact H|].
      destruct (py_format_cases v) as [E|[_ Hz]]; [|exact Hz].
      rewrite E in H. discriminate H. }
  split; [exact Hiff|].
  split.
  { intro s. rewrite Hiff. apply falsy_str_iff. }
  split.
  { intros s Hs. eexists. now apply greet_str_nonempty. }
  split.
  { intros s e H. apply Hany in H.
    destruct H as [H|[_ (z & Hz & _)]]; [exact H | discriminate Hz]. }
  split; [exact Hany|].
  intros a b msg. split; intro H.
  - apply add_raises_only_TypeError in H. discriminate H.
  - apply multiply_raises in H. destruct H as [H|[H|H]]; discriminate H.
Qed.

(** C3. For all integers [a] and [b], [add a b] returns the sum
    [a + b]. *)
Theorem add_int_sum (a b : Z) : add (VInt a) (VInt b) = Ok (VInt (a + b)).
Proof. apply add_ints. Qed.

(** C4. For all integers [a] and [b], [multiply a b] returns the product
    [a * b]; in particular the sign of the result is the product of the
    signs of the operands. *)
Theorem multiply_int_product (a b : Z) :
  multiply (VInt a) (VInt b) = Ok (VInt (a * b)) /\
  Z.sgn (a * b) = Z.sgn a * Z.sgn b.
Proof. split; [apply multiply_ints | apply Z.sgn_mul]. Qed.

(** C5. Zero is absorbing for [multiply] on integers, on either side. *)
Theorem multiply_zero_absorbing (x : Z) :
  multiply (VInt x) (VInt 0) = Ok (VInt 0) /\
  multiply (VInt 0) (VInt x) = Ok (VInt 0).
Proof.
  rewrite !multiply_ints, Z.mul_0_r, Z.mul_0_l. split; reflexivity.
Qed.

(** C6. [add] is commutative on integers. *)
Theorem add_int_comm (a b : Z) : add (VInt a) (VInt b) = add (VInt b) (VInt a).
Proof. rewrite !add_ints. f_equal. f_equal. apply Z.add_comm. Qed.

(** C7. A whitespace-only name is accepted as non-empty and substituted
    verbatim: nothing is trimmed, so the outcome differs from the outcome
    on the trimmed name, which is the error. *)
Theorem greet_whitespace_only (s : string) :
  whitespace_only s = true ->
  greet (VStr s) = Ok (VStr ("Hello, " ++ s ++ "!")) /\
  greet (VStr s) <> greet (VStr (strip_left s)).
Proof.
  intro Hw.
  assert (Hok : greet (VStr s) = Ok (VStr ("Hello, " ++ s ++ "!"))).
  { apply greet_str_nonempty. now apply whitespace_only_nonempty. }
  split; [exact Hok|].
  rewrite Hok.
  unfold whitespace_only in Hw. apply andb_true_iff in Hw.
  destruct Hw as [_ Hb].
  rewrite (strip_left_all_blank s Hb). discriminate.
Qed.

(** The property of C7 at the name made of a single space. *)
Lemma greet_whitespace_only_witness :
  whitespace_only " " = true /\
  greet (VStr " ") = Ok (VStr "Hello,  !") /\
  greet (VStr " ") <> greet (VStr (strip_left " ")).
Proof.
  split; [reflexivity | apply (greet_whitespace_only " "); reflexivity].
Defined.

(** C8. [add] is not limited to numbers: on two strings it returns their
    concatenation, the first followed by the second. *)
Theorem add_str_concat (s t : string) :
  add (VStr s) (VStr t) = Ok (VStr (s ++ t)).
Proof. reflexivity. Qed.

(** C9, amended. A run of [main] succeeds; it prints the banner, calls
    [greet "Jenkins"] and prints its result, calls [add 2 3] and prints
    ["2 + 3 = "] followed by its result, calls [multiply 4 5] and prints
    ["4 * 5 = "] followed by its result, in that order, and these four
    lines are all that is printed. *)
Theorem main_run_order :
  (forall t, main t = (Ok tt, (t ++ main_events)%list)) /\
  (forall t, stdout_lines (snd (main t)) =
             (stdout_lines t ++
              [banner; "Hello, Jenkins!"; "2 + 3 = 5"; "4 * 5 = 20"])%list) /\
  calls_made (snd (main [])) =
    [ (Fgreet, [VStr "Jenkins"]);
      (Fadd, [VInt 2; VInt 3]);
      (Fmultiply, [VInt 4; VInt 5]) ] /\
  exists g s p,
    greet (VStr "Jenkins") = Ok g /\
    add (VInt 2) (VInt 3) = Ok s /\
    multiply (VInt 4) (VInt 5) = Ok p /\
    snd (main []) =
      [ Printed banner;
        Called Fgreet [VStr "Jenkins"]; Printed (py_str g);
        Called Fadd [VInt 2; VInt 3]; Printed ("2 + 3 = " ++ py_str s);
        Called Fmultiply [VInt 4; VInt 5]; Printed ("4 * 5 = " ++ py_str p) ] /\
    stdout_lines (snd (main [])) =
      [ banner; py_str g; "2 + 3 = " ++ py_str s; "4 * 5 = " ++ py_str p ].
Proof.
  split; [exact main_from|].
  split; [exact main_output_from|].
  rewrite main_from. simpl snd.
  split; [exact main_calls|].
  exists (VStr "Hello, Jenkins!"), (VInt 5), (VInt 20).
  repeat split.
Qed.

(** C10, amended. A string times a natural number [n] is the string
    repeated [n] times, provided the count and the length of the result
    fit the index range and the runtime can allocate the result. *)
Theorem multiply_str_repeat (s : string) (n : nat) :
  Z.of_nat n <= PY_SSIZE_T_MAX ->
  char_count s * Z.of_nat n <= PY_SSIZE_T_MAX ->
  can_allocate (copies s n) = true ->
  multiply (VStr s) (VInt (Z.of_nat n)) = Ok (VStr (copies s n)) /\
  String.length (copies s n) = (n * String.length s)%nat.
Proof.
  intros Hn Hlen Halloc.
  rewrite <- repeat_string_copies in *.
  split; [|apply repeat_string_length].
  rewrite multiply_str_int. unfold sequence_repeat, as_index.
  assert (Hrange : (PY_SSIZE_T_MIN <=? Z.of_nat n)
                   && (Z.of_nat n <=? PY_SSIZE_T_MAX) = true).
  { apply andb_true_iff. split; apply Z.leb_le; [|exact Hn].
    unfold PY_SSIZE_T_MIN, PY_SSIZE_T_MAX. lia. }
  rewrite Hrange. cbn [and_then]. unfold unicode_repeat.
  destruct (Z.ltb_spec (Z.of_nat n) 1) as [H1|H1].
  { replace n with 0%nat by lia. reflexivity. }
  destruct (Z.eqb_spec (Z.of_nat n) 1) as [E|NE].
  { replace n with 1%nat by lia. simpl. now rewrite append_empty_r. }
  rewrite Z.gtb_ltb.
  destruct (Z.ltb_spec (PY_SSIZE_T_MAX / Z.of_nat n) (char_count s))
    as [Hover|_].
  { exfalso. apply (Z.lt_irrefl (char_count s)).
    eapply Z.le_lt_trans; [|exact Hover].
    apply Z.div_le_lower_bound; [lia|]. now rewrite Z.mul_comm. }
  destruct s as [|c s'].
  { now rewrite repeat_string_empty. }
  cbv zeta. rewrite Nat2Z.id. now rewrite Halloc.
Qed.

(** * Further properties of the module *)

(** X1. Two different names never get the same outcome from [greet]:
    the name can be read back from the greeting. *)
Theorem greet_distinct_names (n m : string) :
  n <> m -> greet (VStr n) <> greet (VStr m).
Proof.
  intros Hnm Heq. apply Hnm. clear Hnm.
  destruct n as [|a n'], m as [|b m']; try reflexivity;
    try discriminate Heq.
  rewrite !greet_str_nonempty in Heq by discriminate.
  simpl in Heq. injection Heq as Hab Heq. subst b. f_equal.
  now apply (append_last_inj "!").
Qed.

(** X1 at the two names of the test suite. *)
Lemma greet_distinct_names_witness :
  "John" <> "Jenkins" /\ greet (VStr "John") <> greet (VStr "Jenkins").
Proof.
  split; [discriminate | apply (greet_distinct_names "John" "Jenkins")].
  discriminate.
Defined.

(** X2. Whatever [greet] returns is a string, eight characters longer
    than the rendering of its argument, so it is never empty and can be
    greeted again without error. *)
Theorem greet_result_greetable (v g : value) :
  greet v = Ok g ->
  exists s, g = VStr s /\
            String.length s = (String.length (py_str v) + 8)%nat /\
            greet g = Ok (VStr ("Hello, " ++ s ++ "!")).
Proof.
  unfold greet at 1. destruct (truthy v); simpl; intro H; [|discriminate H].
  destruct (py_format v) as [text|e] eqn:E; simpl in H; [|discriminate H].
  apply py_format_ok in E. subst text.
  injection H as <-. eexists. split; [reflexivity|]. split.
  - simpl. rewrite append_length_sum. simpl. lia.
  - reflexivity.
Qed.

(** X2 at the name ["John"]. *)
Lemma greet_result_greetable_witness :
  greet (VStr "John") = Ok (VStr "Hello, John!") /\
  exists s, VStr "Hello, John!" = VStr s /\
            String.length s = (String.length (py_str (VStr "John")) + 8)%nat /\
            greet (VStr "Hello, John!") = Ok (VStr ("Hello, " ++ s ++ "!")).
Proof.
  split; [reflexivity|].
  apply (greet_result_greetable (VStr "John") (VStr "Hello, John!")).
  reflexivity.
Defined.

(** X3. [add] converts nothing: a string can only be added to a string.
    With any other operand, on either side, the call raises
    [TypeError]. *)
Theorem add_str_needs_str (s : string) (v : value) :
  (forall t, v <> VStr t) ->
  add (VStr s) v = Raise TypeError /\ add v (VStr s) = Raise TypeError.
Proof.
  intro Hv. destruct v as [| b | z | t]; try (split; reflexivity).
  now destruct (Hv t).
Qed.

(** X3 with the integer [1] as the other operand. *)
Lemma add_str_needs_str_witness :
  (forall t, VInt 1 <> VStr t) /\
  add (VStr "a") (VInt 1) = Raise TypeError /\
  add (VInt 1) (VStr "a") = Raise TypeError.
Proof.
  split; [intros t; discriminate|].
  apply (add_str_needs_str "a" (VInt 1)). intros t; discriminate.
Defined.

(** X4. [None] is accepted by neither operator, on either side. *)
Theorem None_operand_raises (v : value) :
  add VNone v = Raise TypeError /\ add v VNone = Raise TypeError /\
  multiply VNone v = Raise TypeError /\ multiply v VNone = Raise TypeError.
Proof. destruct v as [| b | z | t]; repeat split. Qed.

(** X5. Repeating a string zero or a negative number of times, the count
    being within the index range, gives the empty string, not an
    error. *)
Theorem multiply_str_nonpositive (s : string) (z : Z) :
  PY_SSIZE_T_MIN <= z <= 0 -> multiply (VStr s) (VInt z) = Ok (VStr "").
Proof.
  intros [Hlo Hhi]. rewrite multiply_str_int.
  unfold sequence_repeat, as_index.
  assert (Hrange : (PY_SSIZE_T_MIN <=? z) && (z <=? PY_SSIZE_T_MAX) = true).
  { apply andb_true_iff. split; apply Z.leb_le; [exact Hlo|].
    unfold PY_SSIZE_T_MAX. lia. }
  rewrite Hrange. cbn [and_then]. unfold unicode_repeat.
  destruct (Z.ltb_spec z 1); [reflexivity | lia].
Qed.

(** X6. [multiply] is commutative on all values: the result, or the
    error, does not depend on the order of the operands. *)
Theorem multiply_comm (a b : value) : multiply a b = multiply b a.
Proof.
  destruct a as [| x | x | s], b as [| y | y | t];
    unfold multiply, binary_mul; cbn [as_int]; try reflexivity;
    now rewrite Z.mul_comm.
Qed.

(** X7. [add] is commutative on all values except when both operands are
    strings. *)
Theorem add_comm_unless_strings (a b : value) :
  (forall s t, ~ (a = VStr s /\ b = VStr t)) -> add a b = add b a.
Proof.
  intro H.
  destruct a as [| x | x | s], b as [| y | y | t];
    unfold add, binary_add; simpl; try reflexivity;
    try (now rewrite Z.add_comm).
  now destruct (H s t).
Qed.

(** X7 at [True + 2]. *)
Lemma add_comm_unless_strings_witness :
  (forall s t, ~ (VBool true = VStr s /\ VInt 2 = VStr t)) /\
  add (VBool true) (VInt 2) = add (VInt 2) (VBool true).
Proof.
  split; [intros s t [H _]; discriminate H|].
  apply (add_comm_unless_strings (VBool true) (VInt 2)).
  intros s t [H _]; discriminate H.
Defined.

(** X8. [add] is associative on all values: [add(add(a, b), c)] and
    [add(a, add(b, c))] return the same value or raise the same error. *)
Theorem add_associative (a b c : value) :
  and_then (add a b) (fun x => add x c) =
  and_then (add b c) (fun y => add a y).
Proof.
  destruct a as [| x | x | s], b as [| y | y | t], c as [| z | z | u];
    unfold add, binary_add; simpl; try reflexivity;
    try (now rewrite Z.add_assoc).
  now rewrite append_assoc_str.
Qed.

(** X9. On integers [multiply] distributes over [add]:
    [multiply(a, add(b, c))] equals
    [add(multiply(a, b), multiply(a, c))]. *)
Theorem multiply_distributes_over_add (a b c : Z) :
  and_then (add (VInt b) (VInt c)) (fun x => multiply (VInt a) x) =
  and_then (multiply (VInt a) (VInt b)) (fun x =>
    and_then (multiply (VInt a) (VInt c)) (fun y => add x y)).
Proof.
  rewrite add_ints, !multiply_ints. cbn [and_then].
  rewrite multiply_ints, add_ints. now rewrite Z.mul_add_distr_l.
Qed.

(** X10. Repetition turns sums into concatenations: for non-negative
    [m] and [n], whenever [multiply(s, m)], [multiply(s, n)] and
    [multiply(s, m + n)] all return, [add] of the first two results is
    the third. *)
Theorem repetition_additive (s : string) (m n : Z) (x y r : value) :
  0 <= m -> 0 <= n ->
  multiply (VStr s) (VInt m) = Ok x ->
  multiply (VStr s) (VInt n) = Ok y ->
  multiply (VStr s) (VInt (m + n)) = Ok r ->
  add x y = Ok r.
Proof.
  intros Hm Hn Hx Hy Hr.
  rewrite multiply_str_int in Hx, Hy, Hr.
  apply sequence_repeat_value in Hx, Hy, Hr. subst x y r.
  rewrite Z2Nat.inj_add by assumption.
  now rewrite repeat_string_plus.
Qed.

(** X11. Repetition composes: unless both counts are negative, whenever
    [multiply(multiply(s, m), n)] and [multiply(s, m * n)] both return,
    they return the same string. *)
Theorem repetition_composes (s : string) (m n : Z) (x y r : value) :
  0 <= m \/ 0 <= n ->
  multiply (VStr s) (VInt m) = Ok x ->
  multiply x (VInt n) = Ok y ->
  multiply (VStr s) (VInt (m * n)) = Ok r ->
  y = r.
Proof.
  intros H Hx Hy Hr.
  rewrite multiply_str_int in Hx, Hr.
  apply sequence_repeat_value in Hx, Hr. subst x r.
  rewrite multiply_str_int in Hy. apply sequence_repeat_value in Hy.
  subst y. now rewrite repeat_string_times, (to_nat_times m n H).
Qed.

(** X12. On operands that are [None], booleans, integers or strings,
    neither operator ever returns [None] or a boolean: a result is an
    integer or a string, even when both operands are booleans. *)
Theorem operator_result_int_or_str (a b r : value) :
  add a b = Ok r \/ multiply a b = Ok r ->
  (exists z, r = VInt z) \/ (exists s, r = VStr s).
Proof.
  intros [H|H]; revert H.
  - destruct a as [| x | x | s], b as [| y | y | t];
      unfold add, binary_add; simpl; intro H;
      try discriminate H; injection H as <-;
      solve [left; eexists; reflexivity | right; eexists; reflexivity].
  - destruct a as [| x | x | s], b as [| y | y | t];
      unfold multiply, binary_mul; cbn [as_int]; intro H;
      try discriminate H;
      try (injection H as <-; left; eexists; reflexivity);
      apply sequence_repeat_value in H; right; eexists; exact H.
Qed.

(** X13. Neutral operands: adding the integer 0 or the empty string, and
    multiplying by the integer 1, return the other operand unchanged. *)
Theorem neutral_operands (z : Z) (s : string) :
  add (VInt z) (VInt 0) = Ok (VInt z) /\
  add (VInt 0) (VInt z) = Ok (VInt z) /\
  add (VStr s) (VStr "") = Ok (VStr s) /\
  add (VStr "") (VStr s) = Ok (VStr s) /\
  multiply (VInt z) (VInt 1) = Ok (VInt z) /\
  multiply (VStr s) (VInt 1) = Ok (VStr s).
Proof.
  rewrite !add_ints, multiply_ints.
  rewrite Z.add_0_r, Z.add_0_l, Z.mul_1_r.
  unfold add, binary_add. rewrite !append_empty_r. repeat split.
Qed.

(** X14. Every test function of the suite passes against the module: no
    assertion fails and no exception escapes. *)
Theorem test_suite_passes : Forall (fun o => o = Passed) test_suite.
Proof. repeat constructor. Qed.

(** X15. Executing the file prints something exactly when it is run as
    the main script; importing it under any other name leaves standard
    output untouched and calls nothing. *)
Theorem module_prints_iff_main (dunder_name : string) (t : trace) :
  (stdout_lines (snd (module_exec dunder_name t)) <> stdout_lines t
     <-> dunder_name = "__main__") /\
  (dunder_name <> "__main__" -> module_exec dunder_name t = (Ok tt, t)) /\
  module_exec "__main__" t = main t.
Proof.
  unfold module_exec.
  destruct (String.eqb_spec dunder_name "__main__") as [E|NE].
  - repeat split; try (intros; congruence).
    intros _. rewrite main_output_from. intro H.
    apply (f_equal (@List.length string)) in H.
    rewrite List.length_app in H. simpl in H. lia.
  - repeat split; try (intros; congruence).
    intro H. now destruct H.
Qed.

(** X16. A repetition count outside the index range raises
    [OverflowError] whatever the string, the empty one included, and on
    whichever side the count stands. *)
Theorem multiply_count_out_of_range (s : string) (z : Z) :
  z < PY_SSIZE_T_MIN \/ PY_SSIZE_T_MAX < z ->
  multiply (VStr s) (VInt z) = Raise OverflowError /\
  multiply (VInt z) (VStr s) = Raise OverflowError.
Proof.
  intro H.
  assert (Hseq : sequence_repeat s z = Raise OverflowError).
  { unfold sequence_repeat, as_index.
    assert (Hrange : (PY_SSIZE_T_MIN <=? z) && (z <=? PY_SSIZE_T_MAX)
                     = false).
    { apply andb_false_iff. destruct H as [H|H];
        [left; apply Z.leb_gt | right; apply Z.leb_gt]; exact H. }
    now rewrite Hrange. }
  split; [rewrite multiply_str_int; exact Hseq | exact Hseq].
Qed.

End App.

(** * Instances on a runtime that never refuses memory *)

(** C9, as stated, read literally: after the banner, each printed line is
    the value returned by the corresponding call.  This fails on every
    runtime: the lines for the sum and the product carry a label before
    the value. *)
Lemma main_not_bare_results : ~ (exists rt, @main_prints_bare_results rt).
Proof. intros [rt H]. exact (bare_results_refuted H). Qed.

(** C10, as stated, for every natural number: it fails on every runtime.
    The count [2 ^ 63] does not fit an index, and the call raises
    [OverflowError] even for the empty string, whose repetitions are all
    empty. *)
Lemma unbounded_repetition_refuted :
  @multiply ample_heap (VStr "") (VInt (2 ^ 63)) = Raise OverflowError /\
  ~ (exists rt, @repeats_for_every_count rt).
Proof.
  assert (Hidx : as_index (2 ^ 63) = Raise OverflowError)
    by (vm_compute; reflexivity).
  split.
  - rewrite multiply_str_int. unfold sequence_repeat. now rewrite Hidx.
  - intros [rt H]. specialize (H "" (Z.to_nat (2 ^ 63))).
    rewrite Z2Nat.id in H by (apply Z.pow_nonneg; lia).
    rewrite multiply_str_int in H. unfold sequence_repeat in H.
    rewrite Hidx in H. discriminate H.
Qed.

(** The property of C10 at ["ab"] repeated three times. *)
Lemma multiply_str_repeat_witness :
  Z.of_nat 3 <= PY_SSIZE_T_MAX /\
  char_count "ab" * Z.of_nat 3 <= PY_SSIZE_T_MAX /\
  @can_allocate ample_heap (copies "ab" 3) = true /\
  @multiply ample_heap (VStr "ab") (VInt (Z.of_nat 3)) = Ok (VStr "ababab") /\
  String.length (copies "ab" 3) = (3 * String.length "ab")%nat.
Proof.
  split; [vm_compute; discriminate|].
  split; [vm_compute; discriminate|].
  split; [reflexivity|].
  apply (@multiply_str_repeat ample_heap "ab" 3);
    [vm_compute; discriminate | vm_compute; discriminate | reflexivity].
Defined.

(** X5 at ["ab" * -2]. *)
Lemma multiply_str_nonpositive_witness :
  PY_SSIZE_T_MIN <= -2 <= 0 /\
  @multiply ample_heap (VStr "ab") (VInt (-2)) = Ok (VStr "").
Proof.
  assert (H : PY_SSIZE_T_MIN <= -2 <= 0)
    by (split; vm_compute; discriminate).
  split; [exact H | exact (@multiply_str_nonpositive ample_heap "ab" (-2) H)].
Defined.

(** X10 at ["ab"] with 1 and 2. *)
Lemma repetition_additive_witness :
  0 <= 1 /\ 0 <= 2 /\
  @multiply ample_heap (VStr "ab") (VInt 1) = Ok (VStr "ab") /\
  @multiply ample_heap (VStr "ab") (VInt 2) = Ok (VStr "abab") /\
  @multiply ample_heap (VStr "ab") (VInt (1 + 2)) = Ok (VStr "ababab") /\
  add (VStr "ab") (VStr "abab") = Ok (VStr "ababab").
Proof.
  repeat (split; [first [reflexivity | vm_compute; discriminate]|]).
  apply (@repetition_additive ample_heap "ab" 1 2
           (VStr "ab") (VStr "abab") (VStr "ababab"));
    first [reflexivity | vm_compute; discriminate].
Defined.

(** X11 at ["ab"] with 2 and 3. *)
Lemma repetition_composes_witness :
  (0 <= 2 \/ 0 <= 3) /\
  @multiply ample_heap (VStr "ab") (VInt 2) = Ok (VStr "abab") /\
  @multiply ample_heap (VStr "abab") (VInt 3) = Ok (VStr "abababababab") /\
  @multiply ample_heap (VStr "ab") (VInt (2 * 3))
    = Ok (VStr "abababababab") /\
  VStr "abababababab" = VStr "abababababab".
Proof.
  split; [left; vm_compute; discriminate|].
  repeat (split; [reflexivity|]).
  apply (@repetition_composes ample_heap "ab" 2 3
           (VStr "abab") (VStr "abababababab") (VStr "abababababab"));
    first [reflexivity | left; vm_compute; discriminate].
Defined.

(** X12 at [True + True]. *)
Lemma operator_result_int_or_str_witness :
  (add (VBool true) (VBool true) = Ok (VInt 2) \/
   @multiply ample_heap (VBool true) (VBool true) = Ok (VInt 2)) /\
  ((exists z, VInt 2 = VInt z) \/ (exists s, VInt 2 = VStr s)).
Proof.
  split; [left; reflexivity|].
  apply (@operator_result_int_or_str ample_heap
           (VBool true) (VBool true) (VInt 2)).
  left; reflexivity.
Defined.

(** X16 at the empty string and the count [2 ^ 63]. *)
Lemma multiply_count_out_of_range_witness :
  (2 ^ 63 < PY_SSIZE_T_MIN \/ PY_SSIZE_T_MAX < 2 ^ 63) /\
  @multiply ample_heap (VStr "") (VInt (2 ^ 63)) = Raise OverflowError /\
  @multiply ample_heap (VInt (2 ^ 63)) (VStr "") = Raise OverflowError.
Proof.
  assert (H : 2 ^ 63 < PY_SSIZE_T_MIN \/ PY_SSIZE_T_MAX < 2 ^ 63)
    by (right; vm_compute; reflexivity).
  split; [exact H|].
  exact (@multiply_count_out_of_range ample_heap "" (2 ^ 63) H).
Defined.
